(** * The wallet hook [useWallet] of the real-estate application

    A shallow embedding of [hooks/useWallet] (the hook that owns the
    [WalletState] record, its [connectWallet] / [disconnectWallet] operations,
    the mount-time connection probe, the [accountsChanged] listener and the
    pure [formatAddress] helper), and the properties of it that the
    specification states.

    Conventions.
    - A JavaScript string is a [string]; one character is one code unit.
      Addresses are ASCII, so [String.length] is the JS [length].
    - [string | null] is [option string]; [accounts[0]] is [nth_error accounts 0].
    - The hook's handlers are written as a [Task]: the sequence of
      [setWalletState] calls they make, with an [Await] node wherever the
      source awaits the provider.  [console.error] calls do not touch the
      state and are left out. *)

From Stdlib Require Import String Ascii List ZArith Bool Lia.
Import ListNotations.
Local Open Scope string_scope.

(** ** JavaScript strings *)

Module Js.

(** [String.prototype.slice(start, end)]: a negative index counts from the
    end of the string, every index is clamped to [0 .. length], and an
    absent [end] is the length. *)
Definition relative_index (len i : Z) : Z :=
  if (i <? 0)%Z then Z.max (len + i) 0 else Z.min i len.

Definition slice (s : string) (start : Z) (end_ : option Z) : string :=
  let len := Z.of_nat (String.length s) in
  let from := relative_index len start in
  let to := match end_ with
            | None => len
            | Some e => relative_index len e
            end in
  substring (Z.to_nat from) (Z.to_nat (Z.max (to - from) 0)) s.

(** Truthiness of a string value: [!s] holds exactly for the empty string. *)
Definition truthy (s : string) : bool :=
  match s with
  | EmptyString => false
  | String _ _ => true
  end.

(** Truthiness of a possibly absent string property ([undefined] is falsy). *)
Definition truthy_opt (s : option string) : bool :=
  match s with
  | None => false
  | Some v => truthy v
  end.

(** The first [n] characters and the last [n] characters of a string, as
    the specification words them (all of the string when it is shorter). *)
Definition first_chars (n : nat) (s : string) : string :=
  substring 0 n s.

Definition last_chars (n : nat) (s : string) : string :=
  substring (String.length s - n) n s.

(** U+2026 HORIZONTAL ELLIPSIS, the one character outside ASCII that is
    needed below, written in its UTF-8 encoding (E2 80 A6); however it is
    encoded, it is not a run of full stops. *)
Definition horizontal_ellipsis : string :=
  String (ascii_of_nat 226)
    (String (ascii_of_nat 128) (String (ascii_of_nat 166) EmptyString)).

End Js.

(** ** The data model *)

Record WalletState : Type := mkWalletState {
  isConnected : bool;
  address : option string;
  isConnecting : bool;
  error : option string
}.

(** The value [useState] is initialised with; [disconnectWallet] writes the
    same record. *)
Definition initialWalletState : WalletState :=
  {| isConnected := false; address := None;
     isConnecting := false; error := None |}.

(** ** formatAddress *)

Definition formatAddress (address : string) : string :=
  if negb (Js.truthy address) then ""
  else Js.slice address 0 (Some 6%Z) ++ "..." ++ Js.slice address (-4) None.

(** ** The injected provider, [window.ethereum] *)

(** What a rejected request carries: an object, as the provider interface
    has it (a numeric code and a message) and as [new Error] builds it.  The
    source reads two properties of it: [code] (compared with [===] against
    a number, so anything that is not that number behaves like an absent
    code) and [message] (tested for truthiness). *)
Record ProviderError : Type := mkProviderError {
  code : option Z;
  message : option string
}.

(** [new Error(msg)]: a message and no [code] property. *)
Definition Error (msg : string) : ProviderError :=
  {| code := None; message := Some msg |}.

(** How the promise returned by a request settles. *)
Inductive Outcome : Type :=
| Resolved (accounts : list string)
| Rejected (e : ProviderError).

(** The global slot [window.ethereum] as the source's type declaration has
    it: [isMetaMask?: boolean], [request], and the optional [on] member
    ([has_on] says whether it is there). *)
Record Ethereum : Type := mkEthereum {
  isMetaMask : option bool;
  request : string -> Outcome;
  has_on : bool
}.

Definition Window : Type := option Ethereum.

Definition isMetaMaskInstalled (window : Window) : bool :=
  match window with
  | None => false
  | Some ethereum =>
      match isMetaMask ethereum with
      | Some true => true
      | _ => false
      end
  end.

(** [window.ethereum!.request({ method })]; the calls below are all guarded
    by [isMetaMaskInstalled], the [None] case only makes the function total. *)
Definition ethereum_request (window : Window) (method : string) : Outcome :=
  match window with
  | Some ethereum => request ethereum method
  | None => Rejected (Error "window.ethereum is undefined")
  end.

(** [getAccounts] and [requestAccounts]: throw when the provider is absent,
    otherwise pass the provider's answer through (a failure is logged and
    thrown again). *)
Definition getAccounts (window : Window) : Outcome :=
  if negb (isMetaMaskInstalled window) then
    Rejected (Error "MetaMask is not installed")
  else ethereum_request window "eth_accounts".

Definition requestAccounts (window : Window) : Outcome :=
  if negb (isMetaMaskInstalled window) then
    Rejected (Error "MetaMask is not installed")
  else ethereum_request window "eth_requestAccounts".

(** ** Handlers as tasks *)

(** The argument of [setWalletState]: a new value, or an updater applied to
    the previous state. *)
Inductive SetStateAction : Type :=
| Value (next : WalletState)
| Updater (f : WalletState -> WalletState).

Definition apply_action (a : SetStateAction) (prev : WalletState) : WalletState :=
  match a with
  | Value next => next
  | Updater f => f prev
  end.

(** What a handler does to the hook's state: it writes the state, it waits
    for a promise ([Await], where other handlers may run), or it is done. *)
Inductive Task : Type :=
| Return
| SetWalletState (a : SetStateAction) (k : Task)
| Await (k : Task).

(** [error.code === n]: strict equality with a number. *)
Definition code_is (e : ProviderError) (n : Z) : bool :=
  match code e with
  | Some c => (c =? n)%Z
  | None => false
  end.

(** The [catch] block of [connectWallet]: the message it stores. *)
Definition errorMessage (e : ProviderError) : string :=
  let errorMessage := "Failed to connect wallet" in
  if code_is e 4001 then "Connection rejected by user"
  else if code_is e (-32002) then "Connection request already pending"
  else if Js.truthy_opt (message e) then
    match message e with
    | Some m => m
    | None => errorMessage
    end
  else errorMessage.

Definition connect_catch (e : ProviderError) : Task :=
  SetWalletState
    (Value {| isConnected := false; address := None;
              isConnecting := false; error := Some (errorMessage e) |})
    Return.

(** What [connectWallet] does once the promise of [requestAccounts] has
    settled: the rest of its [try] block, or its [catch] block. *)
Definition connect_resume (o : Outcome) : Task :=
  match o with
  | Resolved accounts =>
      if (0 <? length accounts)%nat then
        SetWalletState
          (Value {| isConnected := true; address := nth_error accounts 0;
                    isConnecting := false; error := None |})
          Return
      else connect_catch (Error "No accounts found")
  | Rejected e => connect_catch e
  end.

Definition connectWallet (window : Window) : Task :=
  if negb (isMetaMaskInstalled window) then
    SetWalletState
      (Updater (fun prev =>
         {| isConnected := isConnected prev;
            address := address prev;
            isConnecting := false;
            error := Some "MetaMask is not installed. Please install MetaMask to continue." |}))
      Return
  else
    SetWalletState
      (Updater (fun prev =>
         {| isConnected := isConnected prev;
            address := address prev;
            isConnecting := true;
            error := None |}))
      (Await (connect_resume (requestAccounts window))).

Definition disconnectWallet : Task :=
  SetWalletState
    (Value {| isConnected := false; address := None;
              isConnecting := false; error := None |})
    Return.

(** The effect that runs on mount: [checkConnection]. *)
Definition checkConnection (window : Window) : Task :=
  if isMetaMaskInstalled window then
    Await
      match getAccounts window with
      | Resolved accounts =>
          if (0 <? length accounts)%nat then
            SetWalletState
              (Value {| isConnected := true; address := nth_error accounts 0;
                        isConnecting := false; error := None |})
              Return
          else Return
      | Rejected _ => Return
      end
  else Return.

(** The [accountsChanged] listener.  It is a closure over the
    [walletState] of the render that registered it, and reads that
    snapshot's [address]; the updater it passes reads the live state. *)
Definition option_string_eqb (a b : option string) : bool :=
  match a, b with
  | None, None => true
  | Some x, Some y => String.eqb x y
  | _, _ => false
  end.

Definition handleAccountsChanged
    (walletState : WalletState) (accounts : list string) : Task :=
  if (length accounts =? 0)%nat then disconnectWallet
  else if negb (option_string_eqb (nth_error accounts 0) (address walletState)) then
    SetWalletState
      (Updater (fun prev =>
         {| isConnected := true;
            address := nth_error accounts 0;
            isConnecting := isConnecting prev;
            error := None |}))
      Return
  else Return.

(** The effect registers the listener only when this holds. *)
Definition listensForAccounts (window : Window) : bool :=
  isMetaMaskInstalled window &&
  match window with
  | Some ethereum => has_on ethereum
  | None => false
  end.

(** ** Running tasks *)

(** The synchronous part of a task: everything up to its first [Await].
    The result is the state then, and the continuation left waiting. *)
Fixpoint run_sync (t : Task) (s : WalletState) : WalletState * option Task :=
  match t with
  | Return => (s, None)
  | SetWalletState a k => run_sync k (apply_action a s)
  | Await k => (s, Some k)
  end.

(** Every state a task writes, in order, when nothing else runs while it
    waits. *)
Fixpoint writes (t : Task) (s : WalletState) : list WalletState :=
  match t with
  | Return => []
  | SetWalletState a k => apply_action a s :: writes k (apply_action a s)
  | Await k => writes k s
  end.

(** The state once the task has settled. *)
Definition settle (t : Task) (s : WalletState) : WalletState :=
  last (writes t s) s.

(** How many times a task waits for a promise before it is done. *)
Fixpoint awaits (t : Task) : nat :=
  match t with
  | Return => 0
  | SetWalletState _ k => awaits k
  | Await k => S (awaits k)
  end.

(** ** The hook as a state machine *)

(** What can happen to a mounted hook: a caller invokes [connectWallet] or
    [disconnectWallet], the mount effect runs [checkConnection], or the
    provider emits [accountsChanged] to a listener registered by some
    earlier render (whose state is the listener's snapshot). *)
Inductive Operation : Type :=
| OpConnect (window : Window)
| OpDisconnect
| OpCheckConnection (window : Window)
| OpAccountsChanged (snapshot : WalletState) (accounts : list string).

Definition task_of (op : Operation) : Task :=
  match op with
  | OpConnect window => connectWallet window
  | OpDisconnect => disconnectWallet
  | OpCheckConnection window => checkConnection window
  | OpAccountsChanged snapshot accounts => handleAccountsChanged snapshot accounts
  end.

(** The hook between two events: its state, and the handlers that are
    waiting for a promise. *)
Record Hook : Type := mkHook {
  walletState : WalletState;
  waiting : list Task
}.

Definition mounted : Hook :=
  {| walletState := initialWalletState; waiting := [] |}.

Definition park (k : option Task) (ts : list Task) : list Task :=
  match k with
  | Some t => t :: ts
  | None => ts
  end.

(** One turn of the event loop: a handler starts and runs to its first
    [Await], or any one waiting handler resumes and runs to its next. *)
Inductive step : Hook -> Hook -> Prop :=
| step_start (op : Operation) (h : Hook) :
    step h
      {| walletState := fst (run_sync (task_of op) (walletState h));
         waiting := park (snd (run_sync (task_of op) (walletState h))) (waiting h) |}
| step_resume (s : WalletState) (before after : list Task) (k : Task) :
    step {| walletState := s; waiting := before ++ k :: after |}
      {| walletState := fst (run_sync k s);
         waiting := park (snd (run_sync k s)) (before ++ after) |}.

(** The hooks the event loop can produce from a freshly mounted one. *)
Inductive reachable : Hook -> Prop :=
| reach_mounted : reachable mounted
| reach_step (h h' : Hook) : reachable h -> step h h' -> reachable h'.

(** The specification's invariant on the two fields. *)
Definition address_iff_connected (s : WalletState) : Prop :=
  address s <> None <-> isConnected s = true.

(** A task keeps a property of the state when each of its writes does. *)
Fixpoint task_keeps (P : WalletState -> Prop) (t : Task) : Prop :=
  match t with
  | Return => True
  | SetWalletState a k =>
      (forall prev, P prev -> P (apply_action a prev)) /\ task_keeps P k
  | Await k => task_keeps P k
  end.

(** The empty [Disconnected] state of the specification. *)
Definition emptyDisconnected : WalletState :=
  {| isConnected := false; address := None;
     isConnecting := false; error := None |}.

(** The invariant of the machine: the state is consistent, and so is every
    write still to come from a waiting handler. *)
Definition hook_ok (h : Hook) : Prop :=
  address_iff_connected (walletState h) /\
  Forall (task_keeps address_iff_connected) (waiting h).

(** ** The states of the specification, and sample providers *)

Definition Connected (a : string) : WalletState :=
  {| isConnected := true; address := Some a;
     isConnecting := false; error := None |}.

Definition Disconnected (err : option string) : WalletState :=
  {| isConnected := false; address := None;
     isConnecting := false; error := err |}.

(** A MetaMask provider that settles every request with [answer]. *)
Definition metamask (answer : Outcome) : Window :=
  Some {| isMetaMask := Some true; request := fun _ => answer; has_on := true |}.

(** No provider: [window.ethereum] is undefined. *)
Definition no_provider : Window := None.

(** ** Sessions with one provider *)

(** An operation as it can occur while [window.ethereum] is [window]: the
    handlers read that window, and [accountsChanged] is only delivered when
    the effect registered the listener ([listensForAccounts]). *)
Definition occurs_with (window : Window) (op : Operation) : Prop :=
  match op with
  | OpConnect w => w = window
  | OpDisconnect => True
  | OpCheckConnection w => w = window
  | OpAccountsChanged _ _ => listensForAccounts window = true
  end.

(** The hooks the event loop can produce from a freshly mounted one while
    the provider slot stays [window]. *)
Inductive reachable_with (window : Window) : Hook -> Prop :=
| with_mounted : reachable_with window mounted
| with_start (op : Operation) (h : Hook) :
    reachable_with window h ->
    occurs_with window op ->
    reachable_with window
      {| walletState := fst (run_sync (task_of op) (walletState h));
         waiting := park (snd (run_sync (task_of op) (walletState h))) (waiting h) |}
| with_resume (s : WalletState) (before after : list Task) (k : Task) :
    reachable_with window {| walletState := s; waiting := before ++ k :: after |} ->
    reachable_with window
      {| walletState := fst (run_sync k s);
         waiting := park (snd (run_sync k s)) (before ++ after) |}.

(** A waiting handler that, when it resumes, writes one state with
    [isConnecting] false and is done. *)
Definition clears_connecting (k : Task) : Prop :=
  exists v, isConnecting v = false /\ k = SetWalletState (Value v) Return.

(** What a waiting handler of the hook looks like: nothing left to do, or
    one such write. *)
Definition finishes_idle (k : Task) : Prop :=
  k = Return \/ clears_connecting k.

Definition connecting_is_pending (h : Hook) : Prop :=
  Forall finishes_idle (waiting h) /\
  (isConnecting (walletState h) = true -> Exists clears_connecting (waiting h)).

(** ** The wallet modal (components/WalletModal) *)

(** The properties the modal reads; its three callbacks are named by the
    controls that fire them. *)
Record WalletModalProps : Type := mkWalletModalProps {
  isOpen : bool;
  modalWalletState : WalletState;
  modalIsMetaMaskInstalled : bool
}.

(** [formatAddress(walletState.address!)]: the assertion is erased at run
    time, and [formatAddress] answers a null argument like an empty one. *)
Definition formatAddress_asserted (address : option string) : string :=
  match address with
  | None => ""
  | Some a => formatAddress a
  end.

(** The MetaMask row of the form: the connect button (with its [disabled]
    attribute and its label) or the install link. *)
Inductive WalletOption : Type :=
| ConnectButton (disabled : bool) (label : string)
| InstallLink (href : string).

(** What the modal renders inside its frame (styling left out): the
    connected summary with the formatted and the full address and the
    disconnect button, or the form with the error box (when [error] is
    truthy), the row's caption and the row's control. *)
Inductive ModalContent : Type :=
| ConnectedContent (formatted : string) (full : option string)
| NotConnectedContent (errorBox : option string) (caption : string)
    (control : WalletOption).

Record ModalView : Type := mkModalView {
  title : string;
  content : ModalContent
}.

(** The component: [None] is the [null] it returns when closed. *)
Definition WalletModal (props : WalletModalProps) : option ModalView :=
  if negb (isOpen props) then None
  else
    let walletState := modalWalletState props in
    Some
      {| title := if isConnected walletState then "Wallet Connected"
                  else "Connect Wallet";
         content :=
           if isConnected walletState then
             ConnectedContent (formatAddress_asserted (address walletState))
               (address walletState)
           else
             NotConnectedContent
               (if Js.truthy_opt (error walletState) then error walletState
                else None)
               (if modalIsMetaMaskInstalled props
                then "Connect using browser wallet" else "Not installed")
               (if modalIsMetaMaskInstalled props then
                  ConnectButton (isConnecting walletState)
                    (if isConnecting walletState then "Connecting..."
                     else "Connect")
                else InstallLink "https://metamask.io/download/") |}.

(** ** The application shell (App) *)

(** [prev.includes(propertyId)] on a list of strings. *)
Definition includes (l : list string) (x : string) : bool :=
  existsb (String.eqb x) l.

(** The updater [handleToggleFavorite] passes to [setFavorites]. *)
Definition handleToggleFavorite (propertyId : string) (prev : list string)
    : list string :=
  if includes prev propertyId then
    filter (fun id => negb (String.eqb id propertyId)) prev
  else prev ++ [propertyId].

(** [useState(['1', '4'])]. *)
Definition initialFavorites : list string := ["1"; "4"].

(** [handleWalletConnect], a closure over the [error] of the render that
    created it: it awaits [connectWallet] and then, when that [error] is
    falsy, sets the timer that closes the modal.  The result is the task
    run on the hook and whether the timer is set. *)
Definition handleWalletConnect (error : option string) (window : Window)
    : Task * bool :=
  (connectWallet window, negb (Js.truthy_opt error)).

(** * Properties *)

(** ** Strings: [substring] and [Js.slice] *)

Section Substring.

Lemma substring_length (s : string) :
  forall n m, String.length (substring n m s) = Nat.min m (String.length s - n).
Proof.
  induction s as [| c s IH]; intros n m.
  - destruct n, m; reflexivity.
  - destruct n as [| n].
    + destruct m as [| m]; simpl; [reflexivity |].
      rewrite IH. now rewrite Nat.sub_0_r.
    + simpl. apply IH.
Qed.

(** Asking for more characters than there are changes nothing. *)
Lemma substring_clamp (s : string) :
  forall n m, substring n (Nat.min m (String.length s - n)) s = substring n m s.
Proof.
  induction s as [| c s IH]; intros n m.
  - destruct n, m; reflexivity.
  - destruct n as [| n].
    + destruct m as [| m]; [reflexivity |].
      rewrite Nat.sub_0_r. simpl. f_equal.
      rewrite <- (IH 0 m). now rewrite Nat.sub_0_r.
    + simpl. apply IH.
Qed.

Lemma substring_all (s : string) : substring 0 (String.length s) s = s.
Proof. induction s as [| c s IH]; simpl; [reflexivity | now f_equal]. Qed.

Lemma substring_split (s : string) :
  forall n, substring 0 n s ++ substring n (String.length s - n) s = s.
Proof.
  induction s as [| c s IH]; intros n.
  - destruct n; reflexivity.
  - destruct n as [| n]; simpl.
    + f_equal. apply substring_all.
    + f_equal. apply IH.
Qed.

End Substring.

(** [first_chars n s] is a prefix of [s], [n] characters long (all of [s]
    when [s] is shorter). *)
Lemma first_chars_prefix (n : nat) (s : string) :
  String.length (Js.first_chars n s) = Nat.min n (String.length s) /\
  exists rest, s = Js.first_chars n s ++ rest.
Proof.
  unfold Js.first_chars. split.
  - rewrite substring_length. now rewrite Nat.sub_0_r.
  - exists (substring n (String.length s - n) s). symmetry. apply substring_split.
Qed.

(** [last_chars n s] is a suffix of [s], [n] characters long (all of [s]
    when [s] is shorter). *)
Lemma last_chars_suffix (n : nat) (s : string) :
  String.length (Js.last_chars n s) = Nat.min n (String.length s) /\
  exists front, s = front ++ Js.last_chars n s.
Proof.
  unfold Js.last_chars. split.
  - rewrite substring_length. lia.
  - exists (substring 0 (String.length s - n) s).
    rewrite <- (substring_clamp s (String.length s - n) n).
    replace (Nat.min n (String.length s - (String.length s - n)))
      with (String.length s - (String.length s - n)) by lia.
    symmetry. apply substring_split.
Qed.

Lemma relative_index_nonneg (len i : Z) :
  (0 <= i)%Z -> Js.relative_index len i = Z.min i len.
Proof.
  intros Hi. unfold Js.relative_index.
  destruct (i <? 0)%Z eqn:E; [apply Z.ltb_lt in E; lia | reflexivity].
Qed.

Lemma relative_index_neg (len i : Z) :
  (i < 0)%Z -> Js.relative_index len i = Z.max (len + i) 0.
Proof.
  intros Hi. unfold Js.relative_index.
  destruct (i <? 0)%Z eqn:E; [reflexivity | apply Z.ltb_ge in E; lia].
Qed.

Lemma slice_first (s : string) (n : nat) :
  Js.slice s 0 (Some (Z.of_nat n)) = Js.first_chars n s.
Proof.
  unfold Js.slice, Js.first_chars.
  rewrite !relative_index_nonneg by lia.
  rewrite <- (substring_clamp s 0 n). rewrite Nat.sub_0_r.
  f_equal; lia.
Qed.

Lemma slice_last (s : string) (n : nat) :
  (0 < n)%nat -> Js.slice s (- Z.of_nat n) None = Js.last_chars n s.
Proof.
  intros Hpos. unfold Js.slice, Js.last_chars.
  rewrite relative_index_neg by lia.
  rewrite <- (substring_clamp s (String.length s - n) n).
  f_equal; lia.
Qed.

(** ** formatAddress *)

Lemma formatAddress_nonempty (address : string) :
  address <> "" ->
  formatAddress address =
    Js.first_chars 6 address ++ "..." ++ Js.last_chars 4 address.
Proof.
  intros Hne. unfold formatAddress.
  destruct address as [| c rest]; [congruence |].
  cbn [Js.truthy negb].
  change 6%Z with (Z.of_nat 6). change (-4)%Z with (- Z.of_nat 4)%Z.
  rewrite slice_first, slice_last by lia. reflexivity.
Qed.

(** C5, as the code has it: for every non-empty address, [formatAddress]
    returns the first 6 characters, then three full stops ["..."] (U+002E
    three times, not the single character U+2026), then the last 4
    characters; [formatAddress "0x1234567890abcdef"] is ["0x1234...cdef"],
    and [formatAddress ""] is [""]. *)
Theorem formatAddress_three_dots (address : string) :
  address <> "" ->
  formatAddress address =
    Js.first_chars 6 address ++ "..." ++ Js.last_chars 4 address /\
  formatAddress "0x1234567890abcdef" = "0x1234...cdef" /\
  formatAddress "" = "".
Proof.
  intros Hne. split; [now apply formatAddress_nonempty |].
  split; reflexivity.
Qed.

Lemma formatAddress_three_dots_witness :
  "0xabCD5678901234" <> "" /\
  formatAddress "0xabCD5678901234" = "0xabCD...1234".
Proof.
  split; [discriminate |].
  exact (proj1 (formatAddress_three_dots "0xabCD5678901234" ltac:(discriminate))).
Defined.

(** C5, as the specification words it, fails: on the specification's own
    example the code returns three full stops where the specification has
    the one-character ellipsis U+2026. *)
Lemma formatAddress_not_unicode_ellipsis :
  formatAddress "0x1234567890abcdef" = "0x1234...cdef" /\
  formatAddress "0x1234567890abcdef" <>
    "0x1234" ++ Js.horizontal_ellipsis ++ "cdef".
Proof. split; [reflexivity | vm_compute; discriminate]. Qed.

(** ** Tasks: what a run keeps *)

Lemma nth_error_head_some (accounts : list string) :
  (0 <? length accounts)%nat = true -> nth_error accounts 0 <> None.
Proof.
  destruct accounts as [| a rest]; simpl; [discriminate | discriminate].
Qed.

Section Keeps.

Variable P : WalletState -> Prop.

(** A run to the next [Await] keeps what every write keeps, and so does
    the continuation it leaves waiting. *)
Lemma run_sync_keeps (t : Task) :
  forall s, task_keeps P t -> P s ->
    P (fst (run_sync t s)) /\
    forall k, snd (run_sync t s) = Some k -> task_keeps P k.
Proof.
  induction t as [| a k IH | k IH]; intros s Ht Hs; simpl in *.
  - split; [assumption | discriminate].
  - destruct Ht as [Ha Hk]. apply IH; auto.
  - split; [assumption |]. intros k' E. now inversion E; subst.
Qed.

Lemma writes_keep (t : Task) :
  forall s, task_keeps P t -> P s -> Forall P (writes t s).
Proof.
  induction t as [| a k IH | k IH]; intros s Ht Hs; simpl in *.
  - constructor.
  - destruct Ht as [Ha Hk]. constructor; auto.
  - auto.
Qed.

End Keeps.

(** Each handler of the hook keeps [address] and [isConnected] in step. *)
Lemma connect_catch_keeps (e : ProviderError) :
  task_keeps address_iff_connected (connect_catch e).
Proof.
  simpl. split; [| exact I]. intros prev _.
  unfold address_iff_connected; simpl. split; [congruence | discriminate].
Qed.

Lemma connected_value_ok (accounts : list string) :
  (0 <? length accounts)%nat = true ->
  address_iff_connected
    {| isConnected := true; address := nth_error accounts 0;
       isConnecting := false; error := None |}.
Proof.
  intros Hlen. unfold address_iff_connected; simpl.
  split; [reflexivity | intros _; now apply nth_error_head_some].
Qed.

Lemma connectWallet_keeps (window : Window) :
  task_keeps address_iff_connected (connectWallet window).
Proof.
  unfold connectWallet.
  destruct (negb (isMetaMaskInstalled window)); simpl.
  - split; [| exact I]. intros prev Hprev. exact Hprev.
  - split; [intros prev Hprev; exact Hprev |].
    destruct (requestAccounts window) as [accounts | e]; simpl.
    + destruct (0 <? length accounts)%nat eqn:Hlen.
      * simpl. split; [| exact I]. intros prev _.
        now apply connected_value_ok.
      * apply connect_catch_keeps.
    + apply connect_catch_keeps.
Qed.

Lemma disconnectWallet_keeps :
  task_keeps address_iff_connected disconnectWallet.
Proof.
  simpl. split; [| exact I]. intros prev _.
  unfold address_iff_connected; simpl. split; [congruence | discriminate].
Qed.

Lemma checkConnection_keeps (window : Window) :
  task_keeps address_iff_connected (checkConnection window).
Proof.
  unfold checkConnection.
  destruct (isMetaMaskInstalled window); simpl; [| exact I].
  destruct (getAccounts window) as [accounts | e]; [| exact I].
  destruct (0 <? length accounts)%nat eqn:Hlen; simpl; [| exact I].
  split; [| exact I]. intros prev _. now apply connected_value_ok.
Qed.

Lemma handleAccountsChanged_keeps (snapshot : WalletState) (accounts : list string) :
  task_keeps address_iff_connected (handleAccountsChanged snapshot accounts).
Proof.
  unfold handleAccountsChanged.
  destruct (length accounts =? 0)%nat eqn:Hlen; [apply disconnectWallet_keeps |].
  destruct (negb _); simpl; [| exact I].
  split; [| exact I]. intros prev _.
  unfold address_iff_connected; simpl.
  split; [reflexivity | intros _].
  destruct accounts; [discriminate Hlen | discriminate].
Qed.

Lemma task_of_keeps (op : Operation) :
  task_keeps address_iff_connected (task_of op).
Proof.
  destruct op; simpl.
  - apply connectWallet_keeps.
  - apply disconnectWallet_keeps.
  - apply checkConnection_keeps.
  - apply handleAccountsChanged_keeps.
Qed.

Lemma park_ok (k : option Task) (ts : list Task) :
  (forall t, k = Some t -> task_keeps address_iff_connected t) ->
  Forall (task_keeps address_iff_connected) ts ->
  Forall (task_keeps address_iff_connected) (park k ts).
Proof.
  intros Hk Hts. destruct k as [t |]; simpl; [| assumption].
  constructor; auto.
Qed.

Lemma step_keeps_ok (h h' : Hook) : step h h' -> hook_ok h -> hook_ok h'.
Proof.
  intros Hstep [Hs Hw]. destruct Hstep as [op h | s before after k]; simpl in *.
  - destruct (run_sync_keeps address_iff_connected (task_of op) (walletState h)
                (task_of_keeps op) Hs) as [Hs' Hk].
    split; [assumption | now apply park_ok].
  - apply Forall_app in Hw. destruct Hw as [Hb Hka].
    inversion Hka as [| k0 after0 Hk Ha]; subst.
    destruct (run_sync_keeps address_iff_connected k s Hk Hs) as [Hs' Hk'].
    split; [assumption |].
    apply park_ok; [assumption |]. apply Forall_app. now split.
Qed.

Lemma reachable_ok (h : Hook) : reachable h -> hook_ok h.
Proof.
  induction 1 as [| h h' _ IH Hstep].
  - split; [| constructor].
    unfold address_iff_connected; simpl. split; [congruence | discriminate].
  - now apply (step_keeps_ok h h').
Qed.

(** C1: in every state the hook can reach from its initial state by any
    sequence of [connectWallet] (whatever the provider answers),
    [disconnectWallet], the mount-time check and [accountsChanged]
    notifications, interleaved in any order the event loop allows,
    [address] is non-null if and only if [isConnected] is true. *)
Theorem address_present_iff_connected (h : Hook) :
  reachable h ->
  address (walletState h) <> None <-> isConnected (walletState h) = true.
Proof.
  intros Hreach. exact (proj1 (reachable_ok h Hreach)).
Qed.

Lemma address_present_iff_connected_witness :
  reachable {| walletState := Connected "0xAAA"; waiting := [] |} /\
  (address (Connected "0xAAA") <> None <->
   isConnected (Connected "0xAAA") = true).
Proof.
  assert (Hreach : reachable {| walletState := Connected "0xAAA"; waiting := [] |}).
  { eapply reach_step.
    - eapply reach_step; [apply reach_mounted |].
      exact (step_start (OpCheckConnection (metamask (Resolved ["0xAAA"]))) mounted).
    - exact (step_resume initialWalletState [] []
               (SetWalletState (Value (Connected "0xAAA")) Return)). }
  split; [exact Hreach |].
  exact (address_present_iff_connected _ Hreach).
Defined.

(** ** connectWallet *)

Lemma last_default_irrelevant (l : list WalletState) :
  forall x d d', last (x :: l) d = last (x :: l) d'.
Proof.
  induction l as [| y l IH]; intros x d d'; [reflexivity |].
  change (last (y :: l) d = last (y :: l) d'). apply IH.
Qed.

Lemma settle_write (a : SetStateAction) (k : Task) (s : WalletState) :
  settle (SetWalletState a k) s = settle k (apply_action a s).
Proof.
  unfold settle. simpl.
  destruct (writes k (apply_action a s)) as [| y l]; [reflexivity |].
  change (last (y :: l) s = last (y :: l) (apply_action a s)).
  apply last_default_irrelevant.
Qed.

Lemma settle_await (k : Task) (s : WalletState) :
  settle (Await k) s = settle k s.
Proof. reflexivity. Qed.

Lemma requestAccounts_installed (window : Window) :
  isMetaMaskInstalled window = true ->
  requestAccounts window = ethereum_request window "eth_requestAccounts".
Proof. intros Hin. unfold requestAccounts. now rewrite Hin. Qed.

(** With a provider, [connectWallet] writes the connecting state, waits,
    and settles as [connect_resume] says. *)
Lemma connectWallet_installed (window : Window) (s : WalletState) :
  isMetaMaskInstalled window = true ->
  run_sync (connectWallet window) s =
    ({| isConnected := isConnected s; address := address s;
        isConnecting := true; error := None |},
     Some (connect_resume (ethereum_request window "eth_requestAccounts"))) /\
  settle (connectWallet window) s =
    settle (connect_resume (ethereum_request window "eth_requestAccounts"))
      {| isConnected := isConnected s; address := address s;
         isConnecting := true; error := None |}.
Proof.
  intros Hin. unfold connectWallet.
  rewrite (requestAccounts_installed window Hin). rewrite Hin. simpl.
  split; [reflexivity |].
  rewrite settle_write. apply settle_await.
Qed.

(** C2: with the provider installed and the account request resolving
    with a non-empty list, [connectWallet] ends in the Connected state whose
    [address] is the first element of the list, with [isConnected] true,
    [isConnecting] false and [error] null.  (The write after the wait is
    the same from whatever state the hook is in by then.) *)
Theorem connect_first_account_wins
    (window : Window) (s : WalletState) (a : string) (rest : list string) :
  isMetaMaskInstalled window = true ->
  ethereum_request window "eth_requestAccounts" = Resolved (a :: rest) ->
  settle (connectWallet window) s =
    {| isConnected := true; address := Some a;
       isConnecting := false; error := None |} /\
  forall s', run_sync (connect_resume (requestAccounts window)) s' =
    ({| isConnected := true; address := Some a;
        isConnecting := false; error := None |}, None).
Proof.
  intros Hin Hres. split.
  - rewrite (proj2 (connectWallet_installed window s Hin)), Hres. reflexivity.
  - intros s'. rewrite (requestAccounts_installed window Hin), Hres. reflexivity.
Qed.

Lemma connect_first_account_wins_witness :
  isMetaMaskInstalled (metamask (Resolved ["0xAAA"; "0xBBB"])) = true /\
  settle (connectWallet (metamask (Resolved ["0xAAA"; "0xBBB"]))) initialWalletState =
    {| isConnected := true; address := Some "0xAAA";
       isConnecting := false; error := None |}.
Proof.
  split; [reflexivity |].
  exact (proj1 (connect_first_account_wins
                  (metamask (Resolved ["0xAAA"; "0xBBB"])) initialWalletState
                  "0xAAA" ["0xBBB"] eq_refl eq_refl)).
Defined.

(** C3, as the code has it: when the detector reports the provider not
    installed, [connectWallet] does not wait for anything, writes the state
    once, with [error] set to the fixed message and [isConnecting] false,
    and leaves [isConnected] and [address] as they were; so it ends in the
    Disconnected state with that error whenever the wallet was not
    connected before the call.  No state it writes has [isConnecting]
    true. *)
Theorem connect_not_installed (window : Window) (s : WalletState) :
  isMetaMaskInstalled window = false ->
  awaits (connectWallet window) = 0 /\
  writes (connectWallet window) s =
    [ {| isConnected := isConnected s; address := address s;
         isConnecting := false;
         error := Some "MetaMask is not installed. Please install MetaMask to continue." |} ] /\
  Forall (fun w => isConnecting w = false) (writes (connectWallet window) s) /\
  (isConnected s = false -> address s = None ->
   settle (connectWallet window) s =
     Disconnected (Some "MetaMask is not installed. Please install MetaMask to continue.")).
Proof.
  intros Hout. unfold connectWallet, settle. rewrite Hout. simpl.
  repeat split.
  - constructor; [reflexivity | constructor].
  - intros Hc Ha. rewrite Hc, Ha. reflexivity.
Qed.

Lemma connect_not_installed_witness :
  isMetaMaskInstalled no_provider = false /\
  settle (connectWallet no_provider) initialWalletState =
    Disconnected (Some "MetaMask is not installed. Please install MetaMask to continue.").
Proof.
  split; [reflexivity |].
  exact (proj2 (proj2 (proj2
           (connect_not_installed no_provider initialWalletState eq_refl)))
           eq_refl eq_refl).
Defined.

(** C3, as the specification words it, fails: the mount-time check
    connects the wallet, the provider then goes away, and [connectWallet]
    leaves the hook connected (with the error) instead of in the
    Disconnected state. *)
Lemma connect_not_installed_stays_connected :
  settle (checkConnection (metamask (Resolved ["0xAAA"]))) initialWalletState =
    Connected "0xAAA" /\
  isMetaMaskInstalled no_provider = false /\
  settle (connectWallet no_provider) (Connected "0xAAA") =
    {| isConnected := true; address := Some "0xAAA";
       isConnecting := false;
       error := Some "MetaMask is not installed. Please install MetaMask to continue." |} /\
  isConnected (settle (connectWallet no_provider) (Connected "0xAAA")) = true.
Proof. repeat split. Qed.

(** The message the [catch] block stores, case by case. *)
Lemma errorMessage_cases (e : ProviderError) :
  (code e = Some 4001%Z -> errorMessage e = "Connection rejected by user") /\
  (code e = Some (-32002)%Z ->
   errorMessage e = "Connection request already pending") /\
  (code e <> Some 4001%Z -> code e <> Some (-32002)%Z ->
   forall m, message e = Some m -> m <> "" -> errorMessage e = m) /\
  (code e <> Some 4001%Z -> code e <> Some (-32002)%Z ->
   message e = None \/ message e = Some "" ->
   errorMessage e = "Failed to connect wallet").
Proof.
  unfold errorMessage, code_is.
  destruct e as [[c |] msg]; simpl.
  - destruct (Z.eqb_spec c 4001) as [-> | H1];
      [repeat split; try reflexivity; try discriminate; congruence |].
    destruct (Z.eqb_spec c (-32002)) as [-> | H2];
      [repeat split; try reflexivity; try discriminate; congruence |].
    repeat split; try congruence.
    + intros _ _ m -> Hm. destruct m; [congruence | reflexivity].
    + intros _ _ [-> | ->]; reflexivity.
  - repeat split; try discriminate.
    + intros _ _ m -> Hm. destruct m; [congruence | reflexivity].
    + intros _ _ [-> | ->]; reflexivity.
Qed.

(** C4: when the account request issued by [connectWallet] rejects, the
    hook ends Disconnected ([isConnected] false, [address] null,
    [isConnecting] false) with an [error] chosen by the failure: code 4001
    gives "Connection rejected by user", code -32002 gives "Connection
    request already pending", any other failure with a (non-empty, that is
    truthy) message gives that message verbatim, and a failure with no
    message (absent or empty) gives "Failed to connect wallet". *)
Theorem connect_rejected (window : Window) (s : WalletState) (e : ProviderError) :
  isMetaMaskInstalled window = true ->
  ethereum_request window "eth_requestAccounts" = Rejected e ->
  settle (connectWallet window) s =
    {| isConnected := false; address := None;
       isConnecting := false; error := Some (errorMessage e) |} /\
  (code e = Some 4001%Z -> errorMessage e = "Connection rejected by user") /\
  (code e = Some (-32002)%Z ->
   errorMessage e = "Connection request already pending") /\
  (code e <> Some 4001%Z -> code e <> Some (-32002)%Z ->
   forall m, message e = Some m -> m <> "" -> errorMessage e = m) /\
  (code e <> Some 4001%Z -> code e <> Some (-32002)%Z ->
   message e = None \/ message e = Some "" ->
   errorMessage e = "Failed to connect wallet").
Proof.
  intros Hin Hrej. split; [| apply errorMessage_cases].
  rewrite (proj2 (connectWallet_installed window s Hin)), Hrej. reflexivity.
Qed.

Lemma connect_rejected_witness :
  settle (connectWallet
            (metamask (Rejected {| code := Some 4001%Z;
                                   message := Some "User rejected the request." |})))
    (Disconnected (Some "Connection request already pending")) =
  {| isConnected := false; address := None;
     isConnecting := false; error := Some "Connection rejected by user" |}.
Proof.
  exact (proj1 (connect_rejected
                  (metamask (Rejected {| code := Some 4001%Z;
                                         message := Some "User rejected the request." |}))
                  (Disconnected (Some "Connection request already pending"))
                  {| code := Some 4001%Z; message := Some "User rejected the request." |}
                  eq_refl eq_refl)).
Defined.

(** C8: with the provider installed and the account request resolving
    with a zero-length list, [connectWallet] ends Disconnected
    ([isConnected] false, [address] null, [isConnecting] false) with the
    error "No accounts found". *)
Theorem connect_no_accounts (window : Window) (s : WalletState) :
  isMetaMaskInstalled window = true ->
  ethereum_request window "eth_requestAccounts" = Resolved [] ->
  settle (connectWallet window) s =
    {| isConnected := false; address := None;
       isConnecting := false; error := Some "No accounts found" |}.
Proof.
  intros Hin Hres.
  rewrite (proj2 (connectWallet_installed window s Hin)), Hres. reflexivity.
Qed.

Lemma connect_no_accounts_witness :
  isMetaMaskInstalled (metamask (Resolved [])) = true /\
  settle (connectWallet (metamask (Resolved []))) initialWalletState =
    {| isConnected := false; address := None;
       isConnecting := false; error := Some "No accounts found" |}.
Proof.
  split; [reflexivity |].
  exact (connect_no_accounts (metamask (Resolved [])) initialWalletState
           eq_refl eq_refl).
Defined.

(** ** disconnectWallet *)

(** C9: from any state [disconnectWallet] writes the empty Disconnected
    state ([isConnected] false, [address] null, [isConnecting] false,
    [error] null); it waits for nothing and has no failing path; calling it
    again after it has run (or on the initial state) gives back the very
    state it was called in. *)
Theorem disconnect_resets_and_is_idempotent (s : WalletState) :
  settle disconnectWallet s =
    {| isConnected := false; address := None;
       isConnecting := false; error := None |} /\
  awaits disconnectWallet = 0 /\
  settle disconnectWallet (settle disconnectWallet s) = settle disconnectWallet s /\
  settle disconnectWallet emptyDisconnected = emptyDisconnected.
Proof. repeat split. Qed.

(** ** The accountsChanged listener *)

(** C6: an [accountsChanged] notification with an empty list puts the
    hook in the empty Disconnected state ([isConnected] false, [address]
    null, [isConnecting] false, [error] null), whatever state it was in and
    whichever render registered the listener; in particular from a Connected
    state. *)
Theorem accounts_emptied_disconnects (snapshot s : WalletState) :
  settle (handleAccountsChanged snapshot []) s =
    {| isConnected := false; address := None;
       isConnecting := false; error := None |}.
Proof. reflexivity. Qed.

Lemma nth_error_head_differs (a old : string) (rest : list string) :
  a <> old -> option_string_eqb (nth_error (a :: rest) 0) (Some old) = false.
Proof. intros Hne. simpl. now apply String.eqb_neq. Qed.

(** C7: in a Connected state, with the listener registered for the
    address the state holds, a notification carrying a non-empty list whose
    first entry differs from that address sets [address] to the first
    entry, keeps [isConnected] true, clears [error], and leaves
    [isConnecting] as it was. *)
Theorem accounts_switched_updates_address
    (snapshot s : WalletState) (old a : string) (rest : list string) :
  address snapshot = address s ->
  isConnected s = true ->
  address s = Some old ->
  a <> old ->
  settle (handleAccountsChanged snapshot (a :: rest)) s =
    {| isConnected := true; address := Some a;
       isConnecting := isConnecting s; error := None |}.
Proof.
  intros Hsnap _ Hold Hne. unfold handleAccountsChanged.
  rewrite Hsnap, Hold, (nth_error_head_differs a old rest Hne). reflexivity.
Qed.

Lemma accounts_switched_updates_address_witness :
  isConnected (Connected "0xAAA") = true /\
  "0xBBB" <> "0xAAA" /\
  settle (handleAccountsChanged (Connected "0xAAA") ["0xBBB"; "0xAAA"])
    (Connected "0xAAA") =
  {| isConnected := true; address := Some "0xBBB";
     isConnecting := false; error := None |}.
Proof.
  split; [reflexivity |]. split; [discriminate |].
  exact (accounts_switched_updates_address
           (Connected "0xAAA") (Connected "0xAAA") "0xAAA" "0xBBB" ["0xAAA"]
           eq_refl eq_refl eq_refl ltac:(discriminate)).
Defined.

(** C10: in a Disconnected state ([isConnected] false, [address] null),
    with the listener registered for that state, a notification carrying a
    non-empty list makes the hook Connected: [address] is the first entry,
    [isConnected] is true and [error] is null, although [connectWallet]
    was never called. *)
Theorem accounts_notification_connects
    (snapshot s : WalletState) (a : string) (rest : list string) :
  address snapshot = address s ->
  isConnected s = false ->
  address s = None ->
  settle (handleAccountsChanged snapshot (a :: rest)) s =
    {| isConnected := true; address := Some a;
       isConnecting := isConnecting s; error := None |}.
Proof.
  intros Hsnap _ Hnone. unfold handleAccountsChanged.
  rewrite Hsnap, Hnone. reflexivity.
Qed.

Lemma accounts_notification_connects_witness :
  isConnected initialWalletState = false /\
  address initialWalletState = None /\
  settle (handleAccountsChanged initialWalletState ["0xAAA"]) initialWalletState =
    {| isConnected := true; address := Some "0xAAA";
       isConnecting := false; error := None |}.
Proof.
  split; [reflexivity |]. split; [reflexivity |].
  exact (accounts_notification_connects
           initialWalletState initialWalletState "0xAAA" []
           eq_refl eq_refl eq_refl).
Defined.

(** The same from a freshly mounted hook, as one turn of the event loop:
    no [connectWallet] runs, and the hook is connected. *)
Example notification_alone_reaches_connected :
  reachable {| walletState := Connected "0xAAA"; waiting := [] |}.
Proof.
  eapply reach_step; [apply reach_mounted |].
  exact (step_start (OpAccountsChanged initialWalletState ["0xAAA"]) mounted).
Qed.

(** * Further properties of the code *)

(** ** formatAddress on short and long addresses *)

Lemma string_length_app (a b : string) :
  String.length (a ++ b) = String.length a + String.length b.
Proof. induction a as [| c a IH]; simpl; [reflexivity | now rewrite IH]. Qed.

Lemma first_chars_whole (n : nat) (s : string) :
  String.length s <= n -> Js.first_chars n s = s.
Proof.
  intros Hlen. unfold Js.first_chars.
  rewrite <- (substring_clamp s 0 n). rewrite Nat.sub_0_r.
  replace (Nat.min n (String.length s)) with (String.length s) by lia.
  apply substring_all.
Qed.

Lemma last_chars_whole (n : nat) (s : string) :
  String.length s <= n -> Js.last_chars n s = s.
Proof.
  intros Hlen. unfold Js.last_chars.
  replace (String.length s - n) with 0 by lia.
  now apply first_chars_whole.
Qed.

Lemma formatAddress_nonempty_length (address : string) :
  address <> "" ->
  String.length (formatAddress address) =
    Nat.min 6 (String.length address) + 3 + Nat.min 4 (String.length address).
Proof.
  intros Hne. rewrite (formatAddress_nonempty address Hne).
  rewrite !string_length_app.
  rewrite (proj1 (first_chars_prefix 6 address)).
  rewrite (proj1 (last_chars_suffix 4 address)).
  change (String.length "...") with 3. lia.
Qed.

(** X1: the display form of a non-empty address has
    [min 6 n + 3 + min 4 n] characters for an address of [n] characters:
    never more than 13, and exactly 13 from 6 characters on. *)
Theorem formatAddress_length (address : string) :
  address <> "" ->
  String.length (formatAddress address) =
    Nat.min 6 (String.length address) + 3 + Nat.min 4 (String.length address) /\
  String.length (formatAddress address) <= 13 /\
  (6 <= String.length address -> String.length (formatAddress address) = 13).
Proof.
  intros Hne. rewrite (formatAddress_nonempty_length address Hne). lia.
Qed.

Lemma formatAddress_length_witness :
  "0x52908400098527886E0F7030069857D2E4169EE7" <> "" /\
  String.length (formatAddress "0x52908400098527886E0F7030069857D2E4169EE7") = 13.
Proof.
  split; [discriminate |].
  exact (proj1 (formatAddress_length
                  "0x52908400098527886E0F7030069857D2E4169EE7"
                  ltac:(discriminate))).
Defined.

Lemma substring_add (s : string) :
  forall a b c,
    substring a (b + c) s = substring a b s ++ substring (a + b) c s.
Proof.
  induction s as [| x s IH]; intros a b c.
  - destruct a, b, c; reflexivity.
  - destruct a as [| a].
    + destruct b as [| b]; [reflexivity |].
      simpl. f_equal. apply (IH 0 b c).
    + simpl. apply IH.
Qed.

(** X2: for an address of at least 10 characters the display form is the
    address with its middle replaced by three full stops: the address is
    [front ++ middle ++ back] with 6 characters in front and 4 at the back,
    and the result is [front ++ "..." ++ back]. *)
Theorem formatAddress_elides_middle (address : string) :
  10 <= String.length address ->
  exists front middle back,
    address = front ++ middle ++ back /\
    String.length front = 6 /\
    String.length back = 4 /\
    formatAddress address = front ++ "..." ++ back.
Proof.
  intros Hlen.
  assert (Hne : address <> "")
    by (destruct address; [simpl in Hlen; lia | discriminate]).
  exists (Js.first_chars 6 address),
         (substring 6 (String.length address - 10) address),
         (Js.last_chars 4 address).
  split; [| split; [| split]].
  - rewrite <- (substring_split address 6) at 1.
    unfold Js.first_chars, Js.last_chars. f_equal.
    replace (String.length address - 6)
      with ((String.length address - 10) + 4) by lia.
    rewrite substring_add. do 2 f_equal. lia.
  - rewrite (proj1 (first_chars_prefix 6 address)). lia.
  - rewrite (proj1 (last_chars_suffix 4 address)). lia.
  - now apply formatAddress_nonempty.
Qed.

Lemma formatAddress_elides_middle_witness :
  10 <= String.length "0x1234567890abcdef" /\
  exists front middle back,
    "0x1234567890abcdef" = front ++ middle ++ back /\
    String.length front = 6 /\
    String.length back = 4 /\
    formatAddress "0x1234567890abcdef" = front ++ "..." ++ back.
Proof.
  split; [simpl; lia |].
  exact (formatAddress_elides_middle "0x1234567890abcdef"
           ltac:(simpl; lia)).
Defined.

(** X3: an address of at most 4 characters is shown twice, around the
    three full stops (the two slices overlap and each is the whole
    string). *)
Theorem formatAddress_short_repeats (address : string) :
  address <> "" ->
  String.length address <= 4 ->
  formatAddress address = address ++ "..." ++ address.
Proof.
  intros Hne Hlen. rewrite (formatAddress_nonempty address Hne).
  rewrite first_chars_whole by lia. now rewrite last_chars_whole.
Qed.

Lemma formatAddress_short_repeats_witness :
  "0x1" <> "" /\ String.length "0x1" <= 4 /\
  formatAddress "0x1" = "0x1...0x1".
Proof.
  split; [discriminate |]. split; [simpl; lia |].
  exact (formatAddress_short_repeats "0x1" ltac:(discriminate)
           ltac:(simpl; lia)).
Defined.

(** X4: the display form is empty exactly for the empty address; a
    non-empty address never formats to nothing. *)
Theorem formatAddress_empty_iff (address : string) :
  formatAddress address = "" <-> address = "".
Proof.
  split; [| intros ->; reflexivity].
  intros Hempty. destruct address as [| c rest]; [reflexivity |].
  assert (Hne : String c rest <> "") by discriminate.
  pose proof (formatAddress_nonempty_length _ Hne) as Hlen.
  rewrite Hempty in Hlen. simpl in Hlen. lia.
Qed.

(** ** The provider requests *)

(** X5: the mount-time check only ever asks the provider for
    [eth_accounts]: two providers with the same MetaMask flag and the same
    answer to that method give the same check, whatever they would answer
    to [eth_requestAccounts] (the method that prompts the user) and whether
    or not they have [on]. *)
Theorem checkConnection_reads_only_eth_accounts (e1 e2 : Ethereum) :
  isMetaMask e1 = isMetaMask e2 ->
  request e1 "eth_accounts" = request e2 "eth_accounts" ->
  checkConnection (Some e1) = checkConnection (Some e2).
Proof.
  intros Hflag Hreq. unfold checkConnection, getAccounts, isMetaMaskInstalled.
  simpl. now rewrite Hflag, Hreq.
Qed.

Lemma checkConnection_reads_only_eth_accounts_witness :
  checkConnection
    (Some {| isMetaMask := Some true;
             request := fun m => if String.eqb m "eth_accounts"
                                 then Resolved ["0xAAA"]
                                 else Rejected {| code := Some 4001%Z; message := None |};
             has_on := false |}) =
  checkConnection (metamask (Resolved ["0xAAA"])).
Proof.
  exact (checkConnection_reads_only_eth_accounts
           {| isMetaMask := Some true;
              request := fun m => if String.eqb m "eth_accounts"
                                  then Resolved ["0xAAA"]
                                  else Rejected {| code := Some 4001%Z; message := None |};
              has_on := false |}
           {| isMetaMask := Some true;
              request := fun _ => Resolved ["0xAAA"]; has_on := true |}
           eq_refl eq_refl).
Defined.

(** X6: [connectWallet] only ever asks the provider for
    [eth_requestAccounts]: the answer to any other method, and the presence
    of [on], do not change what it does. *)
Theorem connectWallet_reads_only_eth_requestAccounts (e1 e2 : Ethereum) :
  isMetaMask e1 = isMetaMask e2 ->
  request e1 "eth_requestAccounts" = request e2 "eth_requestAccounts" ->
  connectWallet (Some e1) = connectWallet (Some e2).
Proof.
  intros Hflag Hreq. unfold connectWallet, requestAccounts, isMetaMaskInstalled.
  simpl. now rewrite Hflag, Hreq.
Qed.

Lemma connectWallet_reads_only_eth_requestAccounts_witness :
  connectWallet
    (Some {| isMetaMask := Some true;
             request := fun m => if String.eqb m "eth_requestAccounts"
                                 then Resolved ["0xAAA"]
                                 else Resolved [];
             has_on := false |}) =
  connectWallet (metamask (Resolved ["0xAAA"])).
Proof.
  exact (connectWallet_reads_only_eth_requestAccounts
           {| isMetaMask := Some true;
              request := fun m => if String.eqb m "eth_requestAccounts"
                                  then Resolved ["0xAAA"]
                                  else Resolved [];
              has_on := false |}
           {| isMetaMask := Some true;
              request := fun _ => Resolved ["0xAAA"]; has_on := true |}
           eq_refl eq_refl).
Defined.

(** ** The mount-time check *)

Lemma getAccounts_installed (window : Window) :
  isMetaMaskInstalled window = true ->
  getAccounts window = ethereum_request window "eth_accounts".
Proof. intros Hin. unfold getAccounts. now rewrite Hin. Qed.

(** X7: when the provider is installed and already has authorised
    accounts, the mount-time check waits once and connects the hook to the
    first of them, with no error and [isConnecting] false, whatever the
    state was. *)
Theorem checkConnection_connects
    (window : Window) (s : WalletState) (a : string) (rest : list string) :
  isMetaMaskInstalled window = true ->
  ethereum_request window "eth_accounts" = Resolved (a :: rest) ->
  awaits (checkConnection window) = 1 /\
  settle (checkConnection window) s =
    {| isConnected := true; address := Some a;
       isConnecting := false; error := None |}.
Proof.
  intros Hin Hres. unfold checkConnection.
  rewrite Hin, (getAccounts_installed window Hin), Hres. split; reflexivity.
Qed.

Lemma checkConnection_connects_witness :
  isMetaMaskInstalled (metamask (Resolved ["0xAAA"; "0xBBB"])) = true /\
  settle (checkConnection (metamask (Resolved ["0xAAA"; "0xBBB"])))
    (Disconnected (Some "Connection rejected by user")) =
  {| isConnected := true; address := Some "0xAAA";
     isConnecting := false; error := None |}.
Proof.
  split; [reflexivity |].
  exact (proj2 (checkConnection_connects
                  (metamask (Resolved ["0xAAA"; "0xBBB"]))
                  (Disconnected (Some "Connection rejected by user"))
                  "0xAAA" ["0xBBB"] eq_refl eq_refl)).
Defined.

(** X8: in every other case (no provider, a rejected [eth_accounts]
    request, or no authorised account) the mount-time check writes nothing:
    the state, its [error] included, is what it was, so a failure of the
    check is never shown to the user. *)
Theorem checkConnection_swallows (window : Window) (s : WalletState) :
  isMetaMaskInstalled window = false \/
  (exists e, ethereum_request window "eth_accounts" = Rejected e) \/
  ethereum_request window "eth_accounts" = Resolved [] ->
  writes (checkConnection window) s = [] /\
  settle (checkConnection window) s = s.
Proof.
  intros Hcase. unfold settle, checkConnection.
  destruct (isMetaMaskInstalled window) eqn:Hin; [| split; reflexivity].
  rewrite (getAccounts_installed window Hin).
  destruct Hcase as [Hout | [[e Hrej] | Hnone]].
  - discriminate.
  - rewrite Hrej. split; reflexivity.
  - rewrite Hnone. split; reflexivity.
Qed.

Lemma checkConnection_swallows_witness :
  settle (checkConnection
            (metamask (Rejected {| code := Some (-32603)%Z;
                                   message := Some "Internal error" |})))
    initialWalletState = initialWalletState.
Proof.
  exact (proj2 (checkConnection_swallows
                  (metamask (Rejected {| code := Some (-32603)%Z;
                                         message := Some "Internal error" |}))
                  initialWalletState
                  (or_intror (or_introl
                     (ex_intro _ {| code := Some (-32603)%Z;
                                    message := Some "Internal error" |} eq_refl))))).
Defined.

(** ** More on connectWallet *)

Lemma errorMessage_nonempty (e : ProviderError) : errorMessage e <> "".
Proof.
  unfold errorMessage.
  destruct (code_is e 4001); [discriminate |].
  destruct (code_is e (-32002)); [discriminate |].
  destruct (message e) as [[| c m] |]; simpl; discriminate.
Qed.

Lemma connect_resume_settles (o : Outcome) (s : WalletState) :
  (exists a, settle (connect_resume o) s = Connected a) \/
  (exists msg, msg <> "" /\ settle (connect_resume o) s = Disconnected (Some msg)).
Proof.
  destruct o as [[| a rest] | e].
  - right. exists "No accounts found". split; [discriminate | reflexivity].
  - left. exists a. reflexivity.
  - right. exists (errorMessage e). split; [apply errorMessage_nonempty | reflexivity].
Qed.

(** X9: with the provider installed, what [connectWallet] settles in does
    not depend on the state it was called in: the provider's answer alone
    decides it. *)
Theorem connect_forgets_previous_state (window : Window) (s s' : WalletState) :
  isMetaMaskInstalled window = true ->
  settle (connectWallet window) s = settle (connectWallet window) s'.
Proof.
  intros Hin.
  rewrite (proj2 (connectWallet_installed window s Hin)).
  rewrite (proj2 (connectWallet_installed window s' Hin)).
  destruct (ethereum_request window "eth_requestAccounts") as [[| a rest] | e];
    reflexivity.
Qed.

Lemma connect_forgets_previous_state_witness :
  isMetaMaskInstalled (metamask (Resolved ["0xAAA"])) = true /\
  settle (connectWallet (metamask (Resolved ["0xAAA"]))) (Connected "0xBBB") =
  settle (connectWallet (metamask (Resolved ["0xAAA"])))
    (Disconnected (Some "No accounts found")).
Proof.
  split; [reflexivity |].
  exact (connect_forgets_previous_state (metamask (Resolved ["0xAAA"]))
           (Connected "0xBBB") (Disconnected (Some "No accounts found")) eq_refl).
Defined.

(** X10: whatever the provider is and answers, and whatever the state
    was, [connectWallet] settles with [isConnecting] false: it never leaves
    the hook connecting. *)
Theorem connect_settles_not_connecting (window : Window) (s : WalletState) :
  isConnecting (settle (connectWallet window) s) = false.
Proof.
  destruct (isMetaMaskInstalled window) eqn:Hin.
  - rewrite (proj2 (connectWallet_installed window s Hin)).
    destruct (connect_resume_settles
                (ethereum_request window "eth_requestAccounts")
                {| isConnected := isConnected s; address := address s;
                   isConnecting := true; error := None |})
      as [[a ->] | [msg [_ ->]]]; reflexivity.
  - unfold connectWallet, settle. rewrite Hin. reflexivity.
Qed.

Lemma connect_settles_cases (window : Window) (s : WalletState) :
  isMetaMaskInstalled window = true ->
  (exists a, settle (connectWallet window) s = Connected a) \/
  (exists msg, msg <> "" /\
     settle (connectWallet window) s = Disconnected (Some msg)).
Proof.
  intros Hin. rewrite (proj2 (connectWallet_installed window s Hin)).
  apply connect_resume_settles.
Qed.

(** X11: with the provider installed, [connectWallet] settles either
    Connected with no error, or Disconnected with a non-empty error
    message; it never settles disconnected without saying why. *)
Theorem connect_connected_or_explained (window : Window) (s : WalletState) :
  isMetaMaskInstalled window = true ->
  (exists a, settle (connectWallet window) s = Connected a) \/
  (exists msg, msg <> "" /\
     settle (connectWallet window) s = Disconnected (Some msg)).
Proof.
  intros Hin. rewrite (proj2 (connectWallet_installed window s Hin)).
  apply connect_resume_settles.
Qed.

Lemma connect_connected_or_explained_witness :
  isMetaMaskInstalled
    (metamask (Rejected {| code := None; message := Some "" |})) = true /\
  ((exists a,
      settle (connectWallet
                (metamask (Rejected {| code := None; message := Some "" |})))
        initialWalletState = Connected a) \/
   (exists msg, msg <> "" /\
      settle (connectWallet
                (metamask (Rejected {| code := None; message := Some "" |})))
        initialWalletState = Disconnected (Some msg))).
Proof.
  split; [reflexivity |].
  exact (connect_connected_or_explained
           (metamask (Rejected {| code := None; message := Some "" |}))
           initialWalletState eq_refl).
Defined.

(** X12: with the provider installed, [connectWallet] first writes the
    connecting state, which sets [isConnecting], clears [error] and keeps
    [isConnected] and [address] as they were (a connected hook stays
    connected while it reconnects), and then waits exactly once. *)
Theorem connect_enters_connecting (window : Window) (s : WalletState) :
  isMetaMaskInstalled window = true ->
  awaits (connectWallet window) = 1 /\
  fst (run_sync (connectWallet window) s) =
    {| isConnected := isConnected s; address := address s;
       isConnecting := true; error := None |} /\
  snd (run_sync (connectWallet window) s) <> None.
Proof.
  intros Hin. rewrite (proj1 (connectWallet_installed window s Hin)).
  split; [| split; [reflexivity | discriminate]].
  unfold connectWallet. rewrite Hin. simpl.
  destruct (requestAccounts window) as [[| a rest] | e]; reflexivity.
Qed.

Lemma connect_enters_connecting_witness :
  isMetaMaskInstalled (metamask (Resolved ["0xBBB"])) = true /\
  fst (run_sync (connectWallet (metamask (Resolved ["0xBBB"])))
         {| isConnected := true; address := Some "0xAAA";
            isConnecting := false; error := Some "stale" |}) =
    {| isConnected := true; address := Some "0xAAA";
       isConnecting := true; error := None |}.
Proof.
  split; [reflexivity |].
  exact (proj1 (proj2 (connect_enters_connecting
                         (metamask (Resolved ["0xBBB"]))
                         {| isConnected := true; address := Some "0xAAA";
                            isConnecting := false; error := Some "stale" |}
                         eq_refl))).
Defined.

(** ** More on the accountsChanged listener *)

(** X13: a notification whose first account is the address the listener
    was registered with writes nothing, whatever the rest of the list and
    whatever the hook's state is by then (the comparison reads the
    listener's own snapshot): in particular an [error] is not cleared. *)
Theorem accounts_same_address_is_noop
    (snapshot s : WalletState) (a : string) (rest : list string) :
  address snapshot = Some a ->
  writes (handleAccountsChanged snapshot (a :: rest)) s = [] /\
  settle (handleAccountsChanged snapshot (a :: rest)) s = s.
Proof.
  intros Hsnap. unfold settle, handleAccountsChanged. rewrite Hsnap. simpl.
  rewrite String.eqb_refl. split; reflexivity.
Qed.

Lemma accounts_same_address_is_noop_witness :
  address (Connected "0xAAA") = Some "0xAAA" /\
  settle (handleAccountsChanged (Connected "0xAAA") ["0xAAA"; "0xBBB"])
    (Disconnected (Some "Connection rejected by user")) =
  Disconnected (Some "Connection rejected by user").
Proof.
  split; [reflexivity |].
  exact (proj2 (accounts_same_address_is_noop
                  (Connected "0xAAA")
                  (Disconnected (Some "Connection rejected by user"))
                  "0xAAA" ["0xBBB"] eq_refl)).
Defined.

(** ** The machine: connecting means a handler is waiting *)

Lemma connect_resume_clears (o : Outcome) : clears_connecting (connect_resume o).
Proof.
  destruct o as [[| a rest] | e]; simpl; eexists; split; try reflexivity;
    reflexivity.
Qed.

Lemma task_of_parks_idle (op : Operation) (s : WalletState) (k : Task) :
  snd (run_sync (task_of op) s) = Some k -> finishes_idle k.
Proof.
  destruct op as [window | | window | snapshot accounts]; simpl.
  - unfold connectWallet. destruct (negb (isMetaMaskInstalled window)); simpl.
    + discriminate.
    + intros E. inversion E; subst. right. apply connect_resume_clears.
  - discriminate.
  - unfold checkConnection. destruct (isMetaMaskInstalled window); simpl.
    + intros E. inversion E; subst.
      destruct (getAccounts window) as [[| a rest] | e]; simpl.
      * now left.
      * right. eexists. split; [| reflexivity]. reflexivity.
      * now left.
    + discriminate.
  - unfold handleAccountsChanged.
    destruct (length accounts =? 0)%nat; [discriminate |].
    destruct (negb _); discriminate.
Qed.

(** A handler that starts either parks a continuation that clears
    [isConnecting], or does not set [isConnecting] (it keeps or clears it). *)
Lemma task_of_connecting (op : Operation) (s : WalletState) :
  isConnecting (fst (run_sync (task_of op) s)) = true ->
  (exists k, snd (run_sync (task_of op) s) = Some k /\ clears_connecting k) \/
  (isConnecting s = true /\ snd (run_sync (task_of op) s) = None) \/
  (isConnecting s = true /\ fst (run_sync (task_of op) s) = s).
Proof.
  destruct op as [window | | window | snapshot accounts]; simpl.
  - unfold connectWallet. destruct (negb (isMetaMaskInstalled window)); simpl.
    + discriminate.
    + intros _. left. eexists. split; [reflexivity | apply connect_resume_clears].
  - discriminate.
  - unfold checkConnection. destruct (isMetaMaskInstalled window); simpl;
      intros H; right; right; now split.
  - unfold handleAccountsChanged.
    destruct (length accounts =? 0)%nat; [discriminate |].
    destruct (negb _); simpl; intros H.
    + right; left. now split.
    + right; left. now split.
Qed.

Lemma Exists_park (P : Task -> Prop) (k : option Task) (ts : list Task) :
  Exists P ts -> Exists P (park k ts).
Proof. destruct k; simpl; [apply Exists_cons_tl | trivial]. Qed.

Lemma step_keeps_pending (h h' : Hook) :
  step h h' -> connecting_is_pending h -> connecting_is_pending h'.
Proof.
  intros Hstep [Hall Hex].
  destruct Hstep as [op h | s before after k]; simpl in *.
  - split.
    + destruct (snd (run_sync (task_of op) (walletState h))) as [k |] eqn:Ek;
        simpl; [| assumption].
      constructor; [| assumption]. now apply (task_of_parks_idle op (walletState h)).
    + intros Hc.
      destruct (task_of_connecting op (walletState h) Hc)
        as [[k [Ek Hk]] | [[Hs _] | [Hs _]]].
      * rewrite Ek. simpl. now apply Exists_cons_hd.
      * apply Exists_park. auto.
      * apply Exists_park. auto.
  - apply Forall_app in Hall. destruct Hall as [Hb Hka].
    inversion Hka as [| k0 after0 Hk Ha]; subst.
    destruct Hk as [-> | [v [Hv ->]]]; simpl.
    + split; [apply Forall_app; now split |].
      intros Hc. specialize (Hex Hc).
      apply Exists_app in Hex. apply Exists_app.
      destruct Hex as [Hex | Hex]; [now left |].
      inversion Hex as [k1 l1 Hhd | k1 l1 Htl]; subst; [| now right].
      destruct Hhd as [v [_ Hv]]. discriminate Hv.
    + split; [apply Forall_app; now split |].
      intros Hc. cbn in Hc. congruence.
Qed.

Lemma reachable_pending (h : Hook) : reachable h -> connecting_is_pending h.
Proof.
  induction 1 as [| h h' _ IH Hstep].
  - split; [constructor | discriminate].
  - now apply (step_keeps_pending h h').
Qed.

(** X14: in every hook the event loop can reach, if [isConnecting] is
    true then some handler is still waiting for the provider, and that
    handler, when it resumes, clears the flag in one write from whatever
    state it finds; a hook with no handler waiting is never connecting. *)
Theorem connecting_only_while_waiting (h : Hook) :
  reachable h ->
  isConnecting (walletState h) = true ->
  exists k v,
    In k (waiting h) /\ isConnecting v = false /\
    forall s, run_sync k s = (v, None).
Proof.
  intros Hreach Hc.
  destruct (reachable_pending h Hreach) as [_ Hex].
  apply Exists_exists in Hex; [| exact Hc].
  destruct Hex as [k [Hin [v [Hv ->]]]].
  exists (SetWalletState (Value v) Return), v.
  repeat split; auto.
Qed.

Lemma connecting_only_while_waiting_witness :
  isConnecting
    (walletState
       {| walletState := {| isConnected := false; address := None;
                            isConnecting := true; error := None |};
          waiting := [SetWalletState (Value (Connected "0xAAA")) Return] |}) = true /\
  exists k v,
    In k [SetWalletState (Value (Connected "0xAAA")) Return] /\
    isConnecting v = false /\
    forall s, run_sync k s = (v, None).
Proof.
  split; [reflexivity |].
  refine (connecting_only_while_waiting
            {| walletState := {| isConnected := false; address := None;
                                 isConnecting := true; error := None |};
               waiting := [SetWalletState (Value (Connected "0xAAA")) Return] |}
            _ eq_refl).
  eapply reach_step; [apply reach_mounted |].
  exact (step_start (OpConnect (metamask (Resolved ["0xAAA"]))) mounted).
Defined.

(** X15: every handler still waiting in a reachable hook finishes as soon
    as it resumes: no handler of the hook waits for the provider twice. *)
Theorem waiting_handlers_finish (h : Hook) (k : Task) :
  reachable h -> In k (waiting h) -> awaits k = 0.
Proof.
  intros Hreach Hin.
  destruct (reachable_pending h Hreach) as [Hall _].
  rewrite Forall_forall in Hall.
  destruct (Hall k Hin) as [-> | [v [_ ->]]]; reflexivity.
Qed.

Lemma waiting_handlers_finish_witness :
  In (SetWalletState (Value (Connected "0xAAA")) Return)
     [SetWalletState (Value (Connected "0xAAA")) Return] /\
  awaits (SetWalletState (Value (Connected "0xAAA")) Return) = 0.
Proof.
  split; [now left |].
  refine (waiting_handlers_finish
            {| walletState := {| isConnected := false; address := None;
                                 isConnecting := true; error := None |};
               waiting := [SetWalletState (Value (Connected "0xAAA")) Return] |}
            _ _ (or_introl eq_refl)).
  eapply reach_step; [apply reach_mounted |].
  exact (step_start (OpConnect (metamask (Resolved ["0xAAA"]))) mounted).
Defined.

(** ** Sessions without a provider *)

Lemma reachable_with_reachable (window : Window) (h : Hook) :
  reachable_with window h -> reachable h.
Proof.
  induction 1 as [| op h _ IH _ | s before after k _ IH].
  - apply reach_mounted.
  - eapply reach_step; [exact IH | apply step_start].
  - eapply reach_step; [exact IH | apply step_resume].
Qed.

(** X16: while the detector reports the provider not installed, the hook
    never connects, never shows connecting and never has a handler waiting:
    every state it reaches is Disconnected, with no error or with the
    "not installed" message (no listener is registered then, so no
    notification can arrive). *)
Theorem without_provider_stays_disconnected (window : Window) (h : Hook) :
  isMetaMaskInstalled window = false ->
  reachable_with window h ->
  waiting h = [] /\
  (walletState h = Disconnected None \/
   walletState h =
     Disconnected
       (Some "MetaMask is not installed. Please install MetaMask to continue.")).
Proof.
  intros Hout Hreach.
  induction Hreach as [| op h _ IH Hop | s before after k _ IH].
  - split; [reflexivity | now left].
  - destruct IH as [Hw Hs].
    destruct op as [w | | w | snapshot accounts]; simpl in Hop |- *.
    + subst w. unfold connectWallet. rewrite Hout. simpl.
      split; [assumption |]. right.
      destruct Hs as [-> | ->]; reflexivity.
    + split; [assumption | now left].
    + subst w. unfold checkConnection. rewrite Hout. simpl.
      split; assumption.
    + unfold listensForAccounts in Hop. rewrite Hout in Hop. discriminate.
  - destruct IH as [Hw _]. simpl in Hw.
    destruct before; discriminate.
Qed.

Lemma without_provider_stays_disconnected_witness :
  isMetaMaskInstalled (Some {| isMetaMask := None;
                               request := fun _ => Resolved ["0xAAA"];
                               has_on := true |}) = false /\
  (walletState
     {| walletState :=
          Disconnected
            (Some "MetaMask is not installed. Please install MetaMask to continue.");
        waiting := [] |} = Disconnected None \/
   walletState
     {| walletState :=
          Disconnected
            (Some "MetaMask is not installed. Please install MetaMask to continue.");
        waiting := [] |} =
   Disconnected
     (Some "MetaMask is not installed. Please install MetaMask to continue.")).
Proof.
  split; [reflexivity |].
  refine (proj2 (without_provider_stays_disconnected
                   (Some {| isMetaMask := None;
                            request := fun _ => Resolved ["0xAAA"];
                            has_on := true |})
                   {| walletState :=
                        Disconnected
                          (Some "MetaMask is not installed. Please install MetaMask to continue.");
                      waiting := [] |}
                   eq_refl _)).
  exact (with_start _
           (OpConnect (Some {| isMetaMask := None;
                               request := fun _ => Resolved ["0xAAA"];
                               has_on := true |}))
           mounted (with_mounted _) eq_refl).
Defined.

(** ** Favourites (App) *)

Lemma includes_In (l : list string) (x : string) :
  includes l x = true <-> In x l.
Proof.
  unfold includes. rewrite existsb_exists. split.
  - intros [y [Hy Heq]]. apply String.eqb_eq in Heq. now subst.
  - intros Hin. exists x. split; [assumption | apply String.eqb_refl].
Qed.

Lemma In_toggle (propertyId x : string) (prev : list string) :
  In x (handleToggleFavorite propertyId prev) <->
  (if String.eqb x propertyId then ~ In propertyId prev else In x prev).
Proof.
  unfold handleToggleFavorite.
  destruct (includes prev propertyId) eqn:Hinc.
  - apply includes_In in Hinc. rewrite filter_In.
    destruct (String.eqb_spec x propertyId) as [-> | Hne]; simpl.
    + split; [intros [_ H]; discriminate | intros H; contradiction].
    + tauto.
  - assert (Hnot : ~ In propertyId prev).
    { intros Hin. apply includes_In in Hin. congruence. }
    rewrite in_app_iff. simpl.
    destruct (String.eqb_spec x propertyId) as [-> | Hne].
    + tauto.
    + split; [intros [H | [H | []]]; [assumption | congruence] | tauto].
Qed.

(** X17: toggling a favourite flips that listing's membership and
    nothing else: afterwards a listing is a favourite exactly when it is
    the toggled one and was not a favourite, or is another one and was. *)
Theorem toggle_flips_membership (propertyId x : string) (prev : list string) :
  In x (handleToggleFavorite propertyId prev) <->
  (x = propertyId /\ ~ In propertyId prev) \/ (x <> propertyId /\ In x prev).
Proof.
  rewrite In_toggle.
  destruct (String.eqb_spec x propertyId) as [-> | Hne]; tauto.
Qed.

(** X18: toggling keeps the list free of repetitions: if no listing
    occurs twice among the favourites, none does after a toggle. *)
Theorem toggle_keeps_NoDup (propertyId : string) (prev : list string) :
  NoDup prev -> NoDup (handleToggleFavorite propertyId prev).
Proof.
  intros Hnd. unfold handleToggleFavorite.
  destruct (includes prev propertyId) eqn:Hinc.
  - now apply NoDup_filter.
  - assert (Hnot : ~ In propertyId prev).
    { intros Hin. apply includes_In in Hin. congruence. }
    apply NoDup_app; [assumption | repeat constructor; intros [] |].
    intros y Hy [<- | []]. contradiction.
Qed.

Lemma toggle_keeps_NoDup_witness :
  NoDup initialFavorites /\
  NoDup (handleToggleFavorite "4" initialFavorites).
Proof.
  assert (Hnd : NoDup initialFavorites).
  { unfold initialFavorites. constructor.
    - intros [H | []]. discriminate H.
    - constructor; [intros [] | constructor]. }
  split; [exact Hnd |].
  exact (toggle_keeps_NoDup "4" initialFavorites Hnd).
Defined.

Lemma filter_absent (propertyId : string) (l : list string) :
  ~ In propertyId l ->
  filter (fun id => negb (String.eqb id propertyId)) l = l.
Proof.
  induction l as [| y l IH]; intros Hnot; simpl; [reflexivity |].
  destruct (String.eqb_spec y propertyId) as [-> | Hne]; simpl.
  - exfalso. apply Hnot. now left.
  - f_equal. apply IH. intros Hin. apply Hnot. now right.
Qed.

(** X19: adding a listing that was not a favourite and toggling it again
    gives back the very list, in the same order. *)
Theorem toggle_twice_restores (propertyId : string) (prev : list string) :
  ~ In propertyId prev ->
  handleToggleFavorite propertyId (handleToggleFavorite propertyId prev) = prev.
Proof.
  intros Hnot.
  assert (Hinc : includes prev propertyId = false).
  { destruct (includes prev propertyId) eqn:E; [| reflexivity].
    apply includes_In in E. contradiction. }
  unfold handleToggleFavorite at 2. rewrite Hinc.
  unfold handleToggleFavorite.
  assert (Hinc' : includes (prev ++ [propertyId]) propertyId = true).
  { apply includes_In. apply in_app_iff. right. now left. }
  rewrite Hinc'. rewrite filter_app. simpl. rewrite String.eqb_refl. simpl.
  rewrite (filter_absent propertyId prev Hnot). apply app_nil_r.
Qed.

Lemma toggle_twice_restores_witness :
  ~ In "7" initialFavorites /\
  handleToggleFavorite "7" (handleToggleFavorite "7" initialFavorites) =
    initialFavorites.
Proof.
  assert (Hnot : ~ In "7" initialFavorites).
  { intros [H | [H | []]]; discriminate H. }
  split; [exact Hnot |].
  exact (toggle_twice_restores "7" initialFavorites Hnot).
Defined.

(** ** The wallet modal *)

(** X20: on every hook the event loop can reach, an open modal over a
    connected hook shows the connected summary with a real address: the
    title "Wallet Connected", the address in full and its display form;
    the non-null assertion on [address] never meets a null. *)
Theorem modal_connected_shows_address (h : Hook) (installed : bool) :
  reachable h ->
  isConnected (walletState h) = true ->
  exists a,
    address (walletState h) = Some a /\
    WalletModal {| isOpen := true; modalWalletState := walletState h;
                   modalIsMetaMaskInstalled := installed |} =
      Some {| title := "Wallet Connected";
              content := ConnectedContent (formatAddress a) (Some a) |}.
Proof.
  intros Hreach Hc.
  destruct (reachable_ok h Hreach) as [Hinv _].
  destruct (address (walletState h)) as [a |] eqn:Ha.
  - exists a. split; [reflexivity |].
    unfold WalletModal. simpl. rewrite Hc, Ha. reflexivity.
  - exfalso. apply (proj2 Hinv); [exact Hc | exact Ha].
Qed.

Lemma modal_connected_shows_address_witness :
  isConnected (walletState {| walletState := Connected "0x1234567890abcdef";
                              waiting := [] |}) = true /\
  exists a,
    address (walletState {| walletState := Connected "0x1234567890abcdef";
                            waiting := [] |}) = Some a /\
    WalletModal {| isOpen := true;
                   modalWalletState :=
                     walletState {| walletState := Connected "0x1234567890abcdef";
                                    waiting := [] |};
                   modalIsMetaMaskInstalled := true |} =
      Some {| title := "Wallet Connected";
              content := ConnectedContent (formatAddress a) (Some a) |}.
Proof.
  split; [reflexivity |].
  refine (modal_connected_shows_address
            {| walletState := Connected "0x1234567890abcdef"; waiting := [] |}
            true _ eq_refl).
  eapply reach_step; [apply reach_mounted |].
  exact (step_start
           (OpAccountsChanged initialWalletState ["0x1234567890abcdef"]) mounted).
Defined.

(** X21: a [connectWallet] that ends without a connection is always
    shown: with the provider installed, if the hook is not connected once
    [connectWallet] has settled, the open modal renders the error box with
    the stored (non-empty) message under the title "Connect Wallet". *)
Theorem modal_shows_connect_failure
    (window : Window) (s : WalletState) (installed : bool) :
  isMetaMaskInstalled window = true ->
  isConnected (settle (connectWallet window) s) = false ->
  exists msg caption control,
    msg <> "" /\
    error (settle (connectWallet window) s) = Some msg /\
    WalletModal {| isOpen := true;
                   modalWalletState := settle (connectWallet window) s;
                   modalIsMetaMaskInstalled := installed |} =
      Some {| title := "Connect Wallet";
              content := NotConnectedContent (Some msg) caption control |}.
Proof.
  intros Hin Hnc.
  destruct (connect_settles_cases window s Hin)
    as [[a Ha] | [msg [Hmsg Hd]]].
  - rewrite Ha in Hnc. discriminate.
  - rewrite Hd. exists msg. do 2 eexists.
    split; [exact Hmsg |]. split; [reflexivity |].
    unfold WalletModal. simpl.
    destruct msg as [| c m]; [congruence |]. reflexivity.
Qed.

Lemma modal_shows_connect_failure_witness :
  isMetaMaskInstalled
    (metamask (Rejected {| code := Some 4001%Z; message := None |})) = true /\
  exists msg caption control,
    msg <> "" /\
    error (settle (connectWallet
                     (metamask (Rejected {| code := Some 4001%Z; message := None |})))
             initialWalletState) = Some msg /\
    WalletModal {| isOpen := true;
                   modalWalletState :=
                     settle (connectWallet
                               (metamask (Rejected {| code := Some 4001%Z;
                                                      message := None |})))
                       initialWalletState;
                   modalIsMetaMaskInstalled := true |} =
      Some {| title := "Connect Wallet";
              content := NotConnectedContent (Some msg) caption control |}.
Proof.
  split; [reflexivity |].
  exact (modal_shows_connect_failure
           (metamask (Rejected {| code := Some 4001%Z; message := None |}))
           initialWalletState true eq_refl eq_refl).
Defined.

(** X22: the modal offers the connect button, enabled and labelled
    "Connect", exactly when it is open, the hook is not connected and not
    connecting, and the provider is installed; in particular never while a
    connect is in flight and never over a connected hook. *)
Theorem modal_offers_connect_iff (props : WalletModalProps) :
  (exists view errorBox caption,
     WalletModal props = Some view /\
     content view =
       NotConnectedContent errorBox caption (ConnectButton false "Connect")) <->
  isOpen props = true /\
  isConnected (modalWalletState props) = false /\
  isConnecting (modalWalletState props) = false /\
  modalIsMetaMaskInstalled props = true.
Proof.
  unfold WalletModal.
  destruct props as [open [connected addr connecting err] installed]; simpl.
  split.
  - intros [view [errorBox [caption [Hview Hcontent]]]].
    destruct open; simpl in Hview; [| discriminate].
    inversion Hview; subst view; clear Hview. simpl in Hcontent.
    destruct connected; [discriminate |].
    destruct installed; [| discriminate].
    destruct connecting; [discriminate |]. repeat split.
  - intros [-> [-> [-> ->]]]. simpl.
    eexists. do 2 eexists. split; reflexivity.
Qed.

(** ** Connecting from the modal (App) *)

(** X23: when no error is showing at the click, [handleWalletConnect]
    sets the timer that closes the modal even if the connection then fails:
    it tests the [error] of the render that created it, not the outcome of
    the [connectWallet] it awaited. *)
Theorem close_timer_set_after_failure
    (window : Window) (s : WalletState) (e : ProviderError) :
  isMetaMaskInstalled window = true ->
  ethereum_request window "eth_requestAccounts" = Rejected e ->
  error s = None ->
  snd (handleWalletConnect (error s) window) = true /\
  isConnected (settle (fst (handleWalletConnect (error s) window)) s) = false /\
  error (settle (fst (handleWalletConnect (error s) window)) s) =
    Some (errorMessage e).
Proof.
  intros Hin Hrej Hnone. unfold handleWalletConnect. simpl.
  rewrite Hnone. split; [reflexivity |].
  rewrite (proj2 (connectWallet_installed window s Hin)), Hrej.
  split; reflexivity.
Qed.

Lemma close_timer_set_after_failure_witness :
  isMetaMaskInstalled
    (metamask (Rejected {| code := Some 4001%Z; message := None |})) = true /\
  snd (handleWalletConnect (error initialWalletState)
         (metamask (Rejected {| code := Some 4001%Z; message := None |}))) = true /\
  error (settle
           (fst (handleWalletConnect (error initialWalletState)
                   (metamask (Rejected {| code := Some 4001%Z; message := None |}))))
           initialWalletState) = Some "Connection rejected by user".
Proof.
  split; [reflexivity |].
  pose proof (close_timer_set_after_failure
                (metamask (Rejected {| code := Some 4001%Z; message := None |}))
                initialWalletState {| code := Some 4001%Z; message := None |}
                eq_refl eq_refl eq_refl) as H.
  exact (conj (proj1 H) (proj2 (proj2 H))).
Defined.


